(** * SimpleQA search-signal scorer: tool-call detection, abstention-aware
      scoring and run metrics

    Shallow embedding of [openbench/scorers/simpleqa_search_signal.py].

    Python values that the code probes dynamically ([getattr], [dict.get],
    truthiness, [.lower()]) are modelled by the universe [pyval]; the places
    where Python raises are modelled by [result] with the exception that is
    raised.  Floats are modelled by the rationals [Q]: the only float
    operations of the source are the literal [0.0] and the true division of
    two integers, whose float result is the correctly rounded quotient.
    Strings are Rocq strings read as sequences of code points below 256. *)

From Stdlib Require Import ZArith QArith Lia String Ascii.
From stdpp Require Import base option list strings gmap.

Set Warnings "-register-all".
Local Open Scope string_scope.

(** ** Python values *)

Inductive pyval : Type :=
  | PNone
  | PBool (b : bool)
  | PInt (z : Z)
  | PFloat (q : Q)
  | PStr (s : string)
  | PList (l : list pyval)
  | PDict (d : gmap string pyval)
  | PObj (attrs : gmap string pyval).

(** Exceptions the modelled code can raise; [OtherError] stands for whatever
    the baseline grader collaborator raises. *)
Inductive exn : Type :=
  | AttributeError
  | TypeError
  | ZeroDivisionError
  | OtherError (msg : string).

Inductive result (A : Type) : Type :=
  | Ok (a : A)
  | Raise (e : exn).
Arguments Ok {A} a.
Arguments Raise {A} e.

#[global] Instance result_ret : MRet result := fun _ a => Ok a.
#[global] Instance result_bind : MBind result := fun _ _ f r =>
  match r with
  | Ok a => f a
  | Raise e => Raise e
  end.

(** [bool(v)]: Python truthiness. Plain objects are always truthy. *)
Definition truthy (v : pyval) : bool :=
  match v with
  | PNone => false
  | PBool b => b
  | PInt z => negb (z =? 0)%Z
  | PFloat q => negb (Qeq_bool q 0)
  | PStr s => negb (String.eqb s "")
  | PList l => match l with [] => false | _ => true end
  | PDict d => negb (bool_decide (d = ∅))
  | PObj _ => true
  end.

(** [a or b] on values (the right operand is pure wherever the source uses
    this form). *)
Definition py_or (a b : pyval) : pyval := if truthy a then a else b.

(** [getattr(v, name, dflt)]. Only [PObj] carries data attributes; None,
    numbers, strings, lists and dicts have none of the attribute names the
    source probes ([tool_calls], [name], [function]). *)
Definition getattr (v : pyval) (name : string) (dflt : pyval) : pyval :=
  match v with
  | PObj attrs => default dflt (attrs !! name)
  | _ => dflt
  end.

(** [d.get(key)] and [d.get(key, dflt)] on a dict. *)
Definition dict_get (d : gmap string pyval) (key : string) : pyval :=
  default PNone (d !! key).
Definition dict_get_default (d : gmap string pyval) (key : string)
    (dflt : pyval) : pyval :=
  default dflt (d !! key).

(** [v.get(key)] on an arbitrary value: only dicts have the method. An
    object holding a data attribute called [get] is not callable. *)
Definition method_get (v : pyval) (key : string) : result pyval :=
  match v with
  | PDict d => Ok (dict_get d key)
  | PObj attrs =>
      match attrs !! "get" with
      | Some _ => Raise TypeError
      | None => Raise AttributeError
      end
  | _ => Raise AttributeError
  end.

(** [v == s] for a string literal [s]. *)
Definition py_eq_str (v : pyval) (s : string) : bool :=
  match v with
  | PStr t => String.eqb t s
  | _ => false
  end.

(** ** String methods *)

Definition lower_char (c : ascii) : ascii :=
  let n := N_of_ascii c in
  if ((65 <=? n) && (n <=? 90)
      || (192 <=? n) && (n <=? 222) && negb (n =? 215))%N
  then ascii_of_N (n + 32) else c.

Fixpoint lower (s : string) : string :=
  match s with
  | EmptyString => EmptyString
  | String c s' => String (lower_char c) (lower s')
  end.

(** [str.isspace] on one code point below 256. *)
Definition is_space (c : ascii) : bool :=
  let n := N_of_ascii c in
  ((9 <=? n) && (n <=? 13) || (28 <=? n) && (n <=? 32)
   || (n =? 133) || (n =? 160))%N.

Fixpoint lstrip (s : string) : string :=
  match s with
  | EmptyString => EmptyString
  | String c s' => if is_space c then lstrip s' else s
  end.

Fixpoint rstrip (s : string) : string :=
  match s with
  | EmptyString => EmptyString
  | String c s' =>
      match rstrip s' with
      | EmptyString => if is_space c then EmptyString else String c EmptyString
      | r => String c r
      end
  end.

Definition strip (s : string) : string := rstrip (lstrip s).

(** [v.lower()]: only strings have the method. *)
Definition py_lower (v : pyval) : result string :=
  match v with
  | PStr s => Ok (lower s)
  | _ => Raise AttributeError
  end.

(** ** Transcript

    Attributes the source reads with [getattr(_, _, None)] are optional
    fields ([None] stands for an absent attribute as well as for a present
    attribute holding None: the source cannot tell them apart).
    [state.output] and [output.completion] are read without a default.  The
    entries of a tool-invocation list are arbitrary values: the source
    probes their shape at run time. *)

Record ChatMessage : Type := {
  role : option string;
  tool_calls : option (list pyval);
}.

Record ModelOutput : Type := {
  completion : option string;
  message : option ChatMessage;
}.

Record TaskState : Type := {
  output : ModelOutput;
  messages : option (list ChatMessage);
}.

Definition Target : Type := list string.

(** ** Scores *)

Record Score : Type := {
  value : pyval;
  answer : option string;
  explanation : option string;
  metadata : option (gmap string pyval);
}.

Record SampleScore : Type := {
  score : Score;
  sample_id : pyval;
}.

Record RunMetrics : Type := {
  search_call_rate : Q;
  abstain_via_tool_rate : Q;
  attempted_answer_rate : Q;
  hallucination_rate : Q;
}.

(** [a / b] on integers. *)
Definition py_truediv (a b : Z) : result Q :=
  if (b =? 0)%Z then Raise ZeroDivisionError
  else Ok (inject_Z a / inject_Z b)%Q.

Section Detector.

(** [str(v)] for a value that is not a string: the text Python prints for
    numbers, containers and objects plays no part in the properties
    below. *)
Variable repr_other : pyval → string.

Definition py_str (v : pyval) : string :=
  match v with
  | PStr s => s
  | _ => repr_other v
  end.

(** The name probed from one tool-invocation entry (lines 34-41 and
    52-59). *)
Definition tool_call_name (tc : pyval) : result pyval :=
  match tc with
  | PDict d =>
      let n := dict_get d "name" in
      if truthy n then Ok n
      else method_get (py_or (dict_get d "function") (PDict ∅)) "name"
  | _ =>
      match getattr tc "name" PNone with
      | PNone =>
          let func := getattr tc "function" PNone in
          Ok (getattr func "name" PNone)
      | name => Ok name
      end
  end.

(** The loop [for tc in tool_calls: ... tool_names.append(str(name))]. *)
Fixpoint collect_tool_names (tool_names : list string) (tcs : list pyval)
    : result (list string) :=
  match tcs with
  | [] => Ok tool_names
  | tc :: rest =>
      name ← tool_call_name tc;
      collect_tool_names
        (if truthy name then tool_names ++ [py_str name] else tool_names)
        rest
  end.

(** The fallback loop over [state.messages] (lines 47-62). *)
Fixpoint scan_messages (tool_names : list string) (ms : list ChatMessage)
    : result (bool * list string) :=
  match ms with
  | [] => Ok (false, tool_names)
  | m :: rest =>
      if bool_decide (role m = Some "assistant") then
        match tool_calls m with
        | Some (tc :: tcs) =>
            names ← collect_tool_names tool_names (tc :: tcs);
            Ok (true, names)
        | _ => scan_messages tool_names rest
        end
      else scan_messages tool_names rest
  end.

Definition _extract_tool_calls (state : TaskState)
    : result (bool * list string) :=
  let tool_names : list string := [] in
  let msg := message (output state) in
  match msg ≫= tool_calls with
  | Some (tc :: tcs) =>
      names ← collect_tool_names tool_names (tc :: tcs);
      Ok (true, names)
  | _ => scan_messages tool_names (default [] (messages state))
  end.

End Detector.

(** ** Metrics aggregator *)

(** The four counters of the loop of [metric_calculator]. *)
Record Counters : Type := {
  tool_called : Z;
  abstain_via_tool : Z;
  attempted_answers : Z;
  incorrect_answers : Z;
}.

(** The counters before the loop (lines 81-84). *)
Definition zero_counters : Counters :=
  {| tool_called := 0; abstain_via_tool := 0;
     attempted_answers := 0; incorrect_answers := 0 |}.

(** One iteration of [for s in scores] (lines 87-100). *)
Definition metric_step (c : Counters) (s : SampleScore) : result Counters :=
  let md := default ∅ (metadata (score s)) in
  grade ← py_lower (py_or (dict_get md "grade") (PStr ""));
  let tool := truthy (dict_get_default md "tool_called" (PBool false)) in
  let abstention_reason := dict_get md "abstention_reason" in
  let c1 :=
    if tool then
      {| tool_called := tool_called c + 1;
         abstain_via_tool := abstain_via_tool c;
         attempted_answers := attempted_answers c;
         incorrect_answers := incorrect_answers c |}
    else c in
  if String.eqb grade "correct" || String.eqb grade "incorrect" then
    let c2 :=
      {| tool_called := tool_called c1;
         abstain_via_tool := abstain_via_tool c1;
         attempted_answers := attempted_answers c1 + 1;
         incorrect_answers := incorrect_answers c1 |} in
    if String.eqb grade "incorrect" then
      Ok {| tool_called := tool_called c2;
            abstain_via_tool := abstain_via_tool c2;
            attempted_answers := attempted_answers c2;
            incorrect_answers := incorrect_answers c2 + 1 |}
    else Ok c2
  else if tool && py_eq_str abstention_reason "tool_call" then
    Ok {| tool_called := tool_called c1;
          abstain_via_tool := abstain_via_tool c1 + 1;
          attempted_answers := attempted_answers c1;
          incorrect_answers := incorrect_answers c1 |}
  else Ok c1.

Fixpoint metric_loop (c : Counters) (scores : list SampleScore)
    : result Counters :=
  match scores with
  | [] => Ok c
  | s :: rest => c' ← metric_step c s; metric_loop c' rest
  end.

Definition metric_calculator (scores : list SampleScore) : result RunMetrics :=
  match scores with
  | [] =>
      Ok {| search_call_rate := 0; abstain_via_tool_rate := 0;
            attempted_answer_rate := 0; hallucination_rate := 0 |}
  | _ =>
      let total := Z.of_nat (List.length scores) in
      c ← metric_loop zero_counters scores;
      search_call_rate ← py_truediv (tool_called c) total;
      abstain_via_tool_rate ← py_truediv (abstain_via_tool c) total;
      attempted_answer_rate ← py_truediv (attempted_answers c) total;
      hallucination_rate ←
        (if (0 <? attempted_answers c)%Z
         then py_truediv (incorrect_answers c) (attempted_answers c)
         else Ok 0%Q);
      Ok {| search_call_rate := search_call_rate;
            abstain_via_tool_rate := abstain_via_tool_rate;
            attempted_answer_rate := attempted_answer_rate;
            hallucination_rate := hallucination_rate |}
  end.

(** ** Abstention-aware scorer *)

(** One invocation of the baseline grader, as recorded in the call log. *)
Record GraderCall : Type := {
  call_state : TaskState;
  call_target : Target;
}.

(** A scoring computation threads the log of calls made to the baseline
    grader so far. *)
Definition Scoring (A : Type) : Type :=
  list GraderCall → result A * list GraderCall.

(** [(state.output.completion or "").strip()] (line 132). *)
Definition predicted_answer (state : TaskState) : string :=
  strip (default "" (completion (output state))).

Section Scorer.

Variable repr_other : pyval → string.

(** [baseline_grader = simpleqa_scorer(model)], defined in
    [scorers/simpleqa.py]: an external judge. Its answer may differ from
    one call to the next, so it is indexed by the number of calls made
    before. *)
Variable baseline_grader : TaskState → Target → nat → result Score.

(** [await baseline_grader(state, target)]. *)
Definition call_baseline (state : TaskState) (target : Target)
    : Scoring Score :=
  fun log =>
    (baseline_grader state target (List.length log),
     (log ++ [{| call_state := state; call_target := target |}])%list).

(** The value stored under ["abstention_reason"] by [md.update]
    (lines 160-163). *)
Definition merged_abstention_reason (md : gmap string pyval)
    (tool_called : bool) : result pyval :=
  let own := dict_get md "abstention_reason" in
  if truthy own then Ok own
  else
    grade ← py_lower (dict_get_default md "grade" (PStr ""));
    Ok (if String.eqb grade "not_attempted" && negb tool_called
        then PStr "grader_not_attempted" else PNone).

(** The closure [score] returned by [simpleqa_search_signal_scorer]. *)
Definition simpleqa_search_signal_scorer (state : TaskState)
    (target : Target) : Scoring Score :=
  fun log =>
    let predicted_answer := predicted_answer state in
    match _extract_tool_calls repr_other state with
    | Raise e => (Raise e, log)
    | Ok (tool_called, tool_names) =>
        if tool_called && String.eqb predicted_answer "" then
          (Ok {| value := PFloat 0;
                 answer := Some predicted_answer;
                 explanation := None;
                 metadata := Some
                   (<["grade" := PStr "not_attempted"]>
                    (<["grade_letter" := PStr "C"]>
                    (<["tool_called" := PBool true]>
                    (<["tools" := PList (PStr <$> tool_names)]>
                    (<["abstention_reason" := PStr "tool_call"]> ∅))))) |},
           log)
        else
          match call_baseline state target log with
          | (Raise e, log') => (Raise e, log')
          | (Ok graded, log') =>
              let md := default ∅ (metadata graded) in
              match merged_abstention_reason md tool_called with
              | Raise e => (Raise e, log')
              | Ok reason =>
                  (Ok {| value := value graded;
                         answer := answer graded;
                         explanation := None;
                         metadata := Some
                           (<["abstention_reason" := reason]>
                            (<["tools" := PList (PStr <$> tool_names)]>
                            (<["tool_called" := PBool tool_called]> md))) |},
                   log')
              end
          end
    end.

End Scorer.

(** * Specification-side definitions *)

(** ** Detector *)

(** A message carries a non-empty tool-invocation list. *)
Definition carries_tool_calls (m : ChatMessage) : bool :=
  match tool_calls m with
  | Some (_ :: _) => true
  | _ => false
  end.

(** A history message that the fallback scan stops at. *)
Definition assistant_tool_message (m : ChatMessage) : bool :=
  bool_decide (role m = Some "assistant") && carries_tool_calls m.

(** The primary output message carries a non-empty tool-invocation list. *)
Definition primary_tool_calls (state : TaskState) : bool :=
  match message (output state) with
  | Some m => carries_tool_calls m
  | None => false
  end.

(** An invocation entry whose probing raises nothing: anything but a dict,
    or a dict with a truthy ["name"], or a dict whose ["function"] is falsy
    or a dict itself. *)
Definition probe_safe (tc : pyval) : bool :=
  match tc with
  | PDict d =>
      truthy (dict_get d "name")
      || match py_or (dict_get d "function") (PDict ∅) with
         | PDict _ => true
         | _ => false
         end
  | _ => true
  end.

Definition message_safe (m : ChatMessage) : bool :=
  forallb probe_safe (default [] (tool_calls m)).

(** The detector invariant as the specification words it. *)
Definition detector_invariant_claimed (r : bool * list string) : Prop :=
  (r.2 ≠ [] → r.1 = true) ∧ (r.2 = [] → r.1 = false).

(** ** Metrics aggregator *)

(** [md.get(key)] on the metadata of a sample score, an absent mapping
    being read as empty. *)
Definition score_field (s : SampleScore) (key : string) : pyval :=
  dict_get (default ∅ (metadata (score s))) key.

(** The lower-cased grade of [s] is [g]. *)
Definition grade_is (g : string) (s : SampleScore) : bool :=
  match score_field s "grade" with
  | PStr t => String.eqb (lower t) g
  | _ => false
  end.

Definition attempted (s : SampleScore) : bool :=
  grade_is "correct" s || grade_is "incorrect" s.

Definition uses_tool (s : SampleScore) : bool :=
  truthy (score_field s "tool_called").

Definition abstains_via_tool (s : SampleScore) : bool :=
  negb (attempted s) && uses_tool s
  && py_eq_str (score_field s "abstention_reason") "tool_call".

(** The number of scores that satisfy [p]. *)
Definition count_scores (p : SampleScore → bool) (scores : list SampleScore)
    : Z :=
  Z.of_nat (List.length (List.filter p scores)).

(** The grade of [s] is a string, or a value that [or ""] replaces (absent,
    None, or another falsy value). *)
Definition text_or_falsy (v : pyval) : bool :=
  match v with
  | PStr _ => true
  | _ => negb (truthy v)
  end.

Definition grade_is_text (s : SampleScore) : bool :=
  text_or_falsy (score_field s "grade").

(** Two scores agree on the three metadata fields the aggregator reads. *)
Definition same_signal (s1 s2 : SampleScore) : Prop :=
  score_field s1 "grade" = score_field s2 "grade"
  ∧ score_field s1 "tool_called" = score_field s2 "tool_called"
  ∧ score_field s1 "abstention_reason" = score_field s2 "abstention_reason".

Definition in_unit (q : Q) : Prop := (0 <= q)%Q ∧ (q <= 1)%Q.

(** The counters after one more score, as the tallying rules state them. *)
Definition tally (c : Counters) (s : SampleScore) : Counters :=
  {| tool_called := tool_called c + Z.b2z (uses_tool s);
     abstain_via_tool := abstain_via_tool c + Z.b2z (abstains_via_tool s);
     attempted_answers := attempted_answers c + Z.b2z (attempted s);
     incorrect_answers := incorrect_answers c + Z.b2z (grade_is "incorrect" s) |}.

Definition tally_all (c : Counters) (scores : list SampleScore) : Counters :=
  {| tool_called := tool_called c + count_scores uses_tool scores;
     abstain_via_tool :=
       abstain_via_tool c + count_scores abstains_via_tool scores;
     attempted_answers := attempted_answers c + count_scores attempted scores;
     incorrect_answers :=
       incorrect_answers c + count_scores (grade_is "incorrect") scores |}.

(** The rates, as quotients of the counts. *)
Definition rates_of_counts (scores : list SampleScore) : RunMetrics :=
  let total := inject_Z (Z.of_nat (List.length scores)) in
  {| search_call_rate := inject_Z (count_scores uses_tool scores) / total;
     abstain_via_tool_rate :=
       inject_Z (count_scores abstains_via_tool scores) / total;
     attempted_answer_rate :=
       inject_Z (count_scores attempted scores) / total;
     hallucination_rate :=
       if (0 <? count_scores attempted scores)%Z
       then inject_Z (count_scores (grade_is "incorrect") scores)
            / inject_Z (count_scores attempted scores)
       else 0 |}.

(** ** Scorer *)

(** [md.get(key)] on the metadata of a score; [None] when the score has no
    metadata or the key is absent. *)
Definition metadata_field (s : Score) (key : string) : option pyval :=
  metadata s ≫= (.!! key).

Definition grader_call (state : TaskState) (target : Target) : GraderCall :=
  {| call_state := state; call_target := target |}.

(** The lower-cased grade held by [md] is [g]; an absent grade reads as the
    empty string. *)
Definition grade_lower_is (md : gmap string pyval) (g : string) : bool :=
  match md !! "grade" with
  | Some (PStr t) => String.eqb (lower t) g
  | Some _ => false
  | None => String.eqb "" g
  end.

(** The abstention reason as the specification words it: the baseline's
    own reason when it is not null. *)
Definition claimed_abstention_reason (md : gmap string pyval)
    (tool_called : bool) : pyval :=
  match dict_get md "abstention_reason" with
  | PNone =>
      if grade_lower_is md "not_attempted" && negb tool_called
      then PStr "grader_not_attempted" else PNone
  | own => own
  end.

(** The abstention reason with the baseline's own reason kept when it is
    truthy. *)
Definition truthy_abstention_reason (md : gmap string pyval)
    (tool_called : bool) : pyval :=
  let own := dict_get md "abstention_reason" in
  if truthy own then own
  else if grade_lower_is md "not_attempted" && negb tool_called
       then PStr "grader_not_attempted" else PNone.

(** The baseline's metadata carries a truthy abstention reason, or a grade
    that is absent or a string. *)
Definition reason_computable (md : gmap string pyval) : bool :=
  truthy (dict_get md "abstention_reason")
  || match md !! "grade" with
     | None | Some (PStr _) => true
     | Some _ => false
     end.

(** A baseline result whose abstention reason is set to the empty string. *)
Definition graded_with_empty_reason : Score :=
  {| value := PFloat 1;
     answer := Some "Paris";
     explanation := None;
     metadata := Some (<["grade" := PStr "correct"]>
                       {[ "abstention_reason" := PStr "" ]}) |}.

(** The score built from a baseline result [graded] and a reason. *)
Definition merged_score (graded : Score) (tool_called : bool)
    (tool_names : list string) (reason : pyval) : Score :=
  {| value := value graded;
     answer := answer graded;
     explanation := None;
     metadata := Some
       (<["abstention_reason" := reason]>
        (<["tools" := PList (PStr <$> tool_names)]>
        (<["tool_called" := PBool tool_called]>
           (default ∅ (metadata graded))))) |}.

(** ** Further specification-side definitions *)

(** The name one invocation entry contributes to [tool_names], if any. *)
Definition entry_name (repr_other : pyval → string) (tc : pyval)
    : option string :=
  match tool_call_name tc with
  | Ok name => if truthy name then Some (py_str repr_other name) else None
  | Raise _ => None
  end.

(** The names of the entries that have one, in the order of the entries. *)
Definition extracted_names (repr_other : pyval → string) (tcs : list pyval)
    : list string :=
  omap (entry_name repr_other) tcs.

(** The one invocation list the detector reads: the primary message's when
    it is not empty, otherwise that of the first assistant message of the
    history that carries a non-empty one, otherwise none. *)
Definition consulted_calls (state : TaskState) : list pyval :=
  if primary_tool_calls state
  then default [] (message (output state) ≫= tool_calls)
  else match List.find assistant_tool_message (default [] (messages state)) with
       | Some m => default [] (tool_calls m)
       | None => []
       end.

(** An entry from which no name can be read: a value that is neither a dict
    nor an object, or an object without a [name] (absent or None) whose
    [function] is not itself an object. *)
Definition nameless_entry (tc : pyval) : bool :=
  match tc with
  | PDict _ => false
  | PObj attrs =>
      match attrs !! "name" with
      | None | Some PNone =>
          match attrs !! "function" with
          | Some (PObj _) => false
          | _ => true
          end
      | Some _ => false
      end
  | _ => true
  end.

(** Every character of [s] is white space. *)
Fixpoint all_space (s : string) : bool :=
  match s with
  | EmptyString => true
  | String c s' => is_space c && all_space s'
  end.

(** A score as the short-circuit path builds it, seen through the three
    fields the aggregator reads. *)
Definition tool_abstention (s : SampleScore) : bool :=
  grade_is "not_attempted" s && uses_tool s
  && py_eq_str (score_field s "abstention_reason") "tool_call".

(** Two scores agree on the lower-cased grade (both grades being strings)
    and on the two other fields the aggregator reads. *)
Definition same_signal_up_to_case (s1 s2 : SampleScore) : Prop :=
  (∃ t1 t2, score_field s1 "grade" = PStr t1
            ∧ score_field s2 "grade" = PStr t2 ∧ lower t1 = lower t2)
  ∧ score_field s1 "tool_called" = score_field s2 "tool_called"
  ∧ score_field s1 "abstention_reason" = score_field s2 "abstention_reason".

(** The sample score the harness builds from a score. *)
Definition as_sample (ident : pyval) (s : Score) : SampleScore :=
  {| score := s; sample_id := ident |}.

(** * Sample inputs *)

(** A message without tool invocations. *)
Definition plain_message (r : string) : ChatMessage :=
  {| role := Some r; tool_calls := None |}.

Definition assistant_with (tcs : list pyval) : ChatMessage :=
  {| role := Some "assistant"; tool_calls := Some tcs |}.

(** A transcript with final text [text], primary message [msg] and history
    [ms]. *)
Definition transcript (text : string) (msg : option ChatMessage)
    (ms : list ChatMessage) : TaskState :=
  {| output := {| completion := Some text; message := msg |};
     messages := Some ms |}.

(** Shapes of tool-invocation entries: the flat dict [{"name": n}], the
    nested dict [{"function": {"name": n}}], the dict a serialised
    invocation record has, [{"id": .., "function": n, "arguments": {}}],
    and the same record as an object. *)
Definition flat_call (n : string) : pyval :=
  PDict {[ "name" := PStr n ]}.
Definition nested_call (n : string) : pyval :=
  PDict {[ "function" := PDict {[ "name" := PStr n ]} ]}.
Definition record_dict_call (n : string) : pyval :=
  PDict (<["id" := PStr "call_1"]>
         (<["function" := PStr n]> {[ "arguments" := PDict ∅ ]})).
Definition record_object_call (n : string) : pyval :=
  PObj (<["id" := PStr "call_1"]>
        (<["function" := PStr n]> {[ "arguments" := PDict ∅ ]})).

(** No text is needed for values that are not strings in the samples. *)
Definition no_repr : pyval → string := fun _ => "".

Definition tool_only_state : TaskState :=
  transcript "  " (Some (assistant_with [flat_call "web_search"])) [].

Definition answered_after_tool_state : TaskState :=
  transcript " Paris " (Some (assistant_with [flat_call "web_search"])) [].

Definition answered_state : TaskState := transcript "Paris" None [].

Definition fallback_state : TaskState :=
  transcript "" (Some (assistant_with []))
    [ plain_message "user";
      assistant_with [];
      {| role := Some "tool"; tool_calls := Some [flat_call "ignored"] |};
      assistant_with
        [flat_call "search"; record_object_call "lookup"; nested_call "browse"];
      assistant_with [flat_call "later"] ].

Definition object_call_state : TaskState :=
  transcript "" (Some (assistant_with [record_object_call "web_search"])) [].

Definition failing_grader : TaskState → Target → nat → result Score :=
  fun _ _ _ => Raise (OtherError "judge unavailable").

Definition grader_returning (graded : Score)
    : TaskState → Target → nat → result Score :=
  fun _ _ _ => Ok graded.

Definition graded_correct : Score :=
  {| value := PFloat 1;
     answer := Some "Paris";
     explanation := Some "matches the target";
     metadata := Some (<["grade" := PStr "correct"]>
                       {[ "grade_letter" := PStr "A" ]}) |}.

Definition graded_not_attempted : Score :=
  {| value := PFloat 0;
     answer := Some "I do not know";
     explanation := None;
     metadata := Some (<["grade" := PStr "Not_Attempted"]>
                       {[ "grade_letter" := PStr "C" ]}) |}.

Definition sample_with (v : pyval) (md : option (gmap string pyval))
    : SampleScore :=
  {| score := {| value := v; answer := None; explanation := None;
                 metadata := md |};
     sample_id := PInt 1 |}.

Definition incorrect_sample : SampleScore :=
  sample_with (PFloat 0) (Some {[ "grade" := PStr "incorrect" ]}).

Definition correct_sample : SampleScore :=
  sample_with (PFloat 1) (Some {[ "grade" := PStr "correct" ]}).

Definition abstained_sample : SampleScore :=
  sample_with (PFloat 0)
    (Some (<["grade" := PStr "not_attempted"]>
           (<["tool_called" := PBool true]>
            {[ "abstention_reason" := PStr "tool_call" ]}))).

(** The same three fields as [abstained_sample], every other part
    different. *)
Definition abstained_sample_variant : SampleScore :=
  {| score := {| value := PStr "C"; answer := Some "searching";
                 explanation := Some "tool call";
                 metadata := Some
                   (<["grade" := PStr "not_attempted"]>
                    (<["tool_called" := PBool true]>
                     (<["abstention_reason" := PStr "tool_call"]>
                      {[ "tools" := PList [PStr "web_search"] ]}))) |};
     sample_id := PStr "q-17" |}.

(** No metadata at all, against metadata without the three fields. *)
Definition bare_sample : SampleScore := sample_with (PFloat 0) None.
Definition unrelated_sample : SampleScore :=
  sample_with (PInt 7) (Some {[ "grade_letter" := PStr "B" ]}).

(** An invocation entry that names [n], in the nested dict shape when
    [nested] holds and in the flat one otherwise. *)
Definition named_entry (e : bool * string) : pyval :=
  if e.1 then nested_call e.2 else flat_call e.2.

(** A primary invocation list together with a history that holds another
    one. *)
Definition primary_and_history_state : TaskState :=
  transcript "" (Some (assistant_with [flat_call "web_search"]))
    [assistant_with [flat_call "other"; record_dict_call "broken"]].

(** A primary invocation list whose one entry cannot be probed. *)
Definition broken_call_state : TaskState :=
  transcript "" (Some (assistant_with [record_dict_call "web_search"])) [].

(** A grade in upper case, and a grade that is None. *)
Definition shouted_correct_sample : SampleScore :=
  sample_with (PFloat 1) (Some {[ "grade" := PStr "CORRECT" ]}).


(** * Properties of the tool-call detector *)

Section DetectorProperties.

Variable repr_other : pyval → string.

Lemma flagged_true_not_false (r : result (list string)) names :
  (ns ← r; Ok (true, ns)) ≠ Ok (false, names).
Proof. by destruct r. Qed.

Lemma scan_messages_false tool_names ms names :
  scan_messages repr_other tool_names ms = Ok (false, names) →
  names = tool_names.
Proof.
  induction ms as [|m rest IH]; cbn [scan_messages]; intros H.
  - by inversion H.
  - case_bool_decide; [|by apply IH].
    destruct (tool_calls m) as [[|tc tcs]|]; try by apply IH.
    by apply flagged_true_not_false in H.
Qed.

Lemma scan_messages_find tool_names ms m :
  List.find assistant_tool_message ms = Some m →
  scan_messages repr_other tool_names ms =
    names ← collect_tool_names repr_other tool_names
              (default [] (tool_calls m));
    Ok (true, names).
Proof.
  induction ms as [|x rest IH]; cbn [scan_messages List.find]; [done|].
  unfold assistant_tool_message at 1, carries_tool_calls.
  case_bool_decide as Hrole; cbn [andb].
  - destruct (tool_calls x) as [[|tc tcs]|] eqn:Htc; try by apply IH.
    intros [= <-]. by rewrite Htc.
  - by apply IH.
Qed.

Lemma primary_tool_calls_false state :
  primary_tool_calls state = false →
  _extract_tool_calls repr_other state =
    scan_messages repr_other [] (default [] (messages state)).
Proof.
  unfold primary_tool_calls, _extract_tool_calls, carries_tool_calls.
  destruct (message (output state)) as [m|]; simpl; [|done].
  by destruct (tool_calls m) as [[|tc tcs]|].
Qed.

Lemma tool_call_name_safe tc :
  probe_safe tc = true → ∃ name, tool_call_name tc = Ok name.
Proof.
  destruct tc as [| | | | | |d|attrs]; cbn [tool_call_name probe_safe];
    try (intros _; destruct (getattr _ "name" PNone); by eexists).
  destruct (truthy (dict_get d "name")); [by eexists|]. cbn [orb].
  destruct (py_or _ _); try done. by eexists.
Qed.

Lemma collect_tool_names_safe tool_names tcs :
  forallb probe_safe tcs = true →
  ∃ names, collect_tool_names repr_other tool_names tcs = Ok names.
Proof.
  revert tool_names.
  induction tcs as [|tc rest IH]; intros tool_names; [by eexists|].
  cbn [forallb collect_tool_names]. intros [Htc Hrest]%andb_true_iff.
  destruct (tool_call_name_safe tc Htc) as [name ->].
  cbn [mbind result_bind]. by apply IH.
Qed.

Lemma scan_messages_safe tool_names ms :
  Forall (λ m, message_safe m = true) ms →
  ∃ called names, scan_messages repr_other tool_names ms = Ok (called, names).
Proof.
  induction 1 as [|m rest Hm _ IH]; cbn [scan_messages]; [by do 2 eexists|].
  case_bool_decide; [|done]. unfold message_safe in Hm.
  destruct (tool_calls m) as [[|tc tcs]|]; try done.
  destruct (collect_tool_names_safe tool_names (tc :: tcs) Hm) as [names ->].
  by do 2 eexists.
Qed.

(** The detector returns on every transcript whose invocation entries are
    all safe to probe. *)
Lemma detector_returns state :
  (∀ m, message (output state) = Some m → message_safe m = true) →
  Forall (λ m, message_safe m = true) (default [] (messages state)) →
  ∃ called names, _extract_tool_calls repr_other state = Ok (called, names).
Proof.
  intros Hprimary Hhistory. unfold _extract_tool_calls.
  destruct (message (output state)) as [m|] eqn:Hm; cbn [mbind option_bind];
    [|by apply scan_messages_safe].
  specialize (Hprimary m eq_refl). unfold message_safe in Hprimary.
  destruct (tool_calls m) as [[|tc tcs]|]; try by apply scan_messages_safe.
  destruct (collect_tool_names_safe [] (tc :: tcs) Hprimary) as [names ->].
  by do 2 eexists.
Qed.

(** C2 (as amended): whenever the detector returns, a non-empty
    [tool_names] comes with [tool_called = true]; equivalently
    [tool_called = false] comes with an empty [tool_names]. *)
Theorem detector_names_imply_called state called names :
  _extract_tool_calls repr_other state = Ok (called, names) →
  (names ≠ [] → called = true) ∧ (called = false → names = []).
Proof.
  intros H.
  assert (called = false → names = []) as Hfalse.
  { intros ->. revert H. unfold _extract_tool_calls.
    destruct (message (output state) ≫= tool_calls) as [[|tc tcs]|];
      try apply scan_messages_false.
    intros H. by apply flagged_true_not_false in H. }
  split; [|done].
  destruct called; [done|]. intros Hne. by destruct Hne, Hfalse.
Qed.

(** C6: when the primary output message carries no non-empty
    tool-invocation list and the history holds an assistant message with
    one, the detector's outcome is [tool_called = true] with the names
    collected from the first such message in history order, and from that
    message alone. *)
Theorem detector_fallback_first_match state m :
  primary_tool_calls state = false →
  List.find assistant_tool_message (default [] (messages state)) = Some m →
  _extract_tool_calls repr_other state =
    names ← collect_tool_names repr_other [] (default [] (tool_calls m));
    Ok (true, names).
Proof.
  intros Hprimary Hfind.
  rewrite primary_tool_calls_false by done.
  by apply scan_messages_find.
Qed.

(** C9: on a dict entry whose ["function"] value is a string, the detector
    raises instead of returning. *)
Theorem detector_raises_on_record_dict :
  _extract_tool_calls repr_other
    (transcript "" (Some (assistant_with [record_dict_call "web_search"])) [])
  = Raise AttributeError.
Proof. reflexivity. Qed.

End DetectorProperties.

(** * Properties of the metrics aggregator *)

Section MetricsProperties.

Lemma counters_eq (c c' : Counters) :
  tool_called c = tool_called c' →
  abstain_via_tool c = abstain_via_tool c' →
  attempted_answers c = attempted_answers c' →
  incorrect_answers c = incorrect_answers c' →
  c = c'.
Proof. destruct c, c'; simpl; congruence. Qed.

Lemma tool_flag_default (md : gmap string pyval) :
  truthy (dict_get_default md "tool_called" (PBool false))
  = truthy (dict_get md "tool_called").
Proof.
  unfold dict_get_default, dict_get. by destruct (md !! "tool_called").
Qed.

Lemma lower_grade_text (v : pyval) :
  text_or_falsy v = true →
  py_lower (py_or v (PStr "")) =
    Ok (match v with PStr t => lower t | _ => "" end).
Proof.
  unfold py_or, text_or_falsy.
  destruct v as [| | | |t| | |]; simpl; try done;
    try (intros ->%negb_true_iff; done).
  by destruct t.
Qed.

Lemma lower_grade_returns (v : pyval) (g : string) :
  py_lower (py_or v (PStr "")) = Ok g →
  text_or_falsy v = true.
Proof.
  unfold py_or, text_or_falsy. destruct (truthy v) eqn:E.
  - by destruct v.
  - intros _. destruct v; rewrite ?E; done.
Qed.

Lemma metric_step_text c s :
  grade_is_text s = true → metric_step c s = Ok (tally c s).
Proof.
  unfold grade_is_text, metric_step, tally, abstains_via_tool, attempted,
    uses_tool, grade_is, score_field.
  set (md := default ∅ (metadata (score s))).
  intros Htext. rewrite lower_grade_text by done.
  rewrite tool_flag_default. cbn [mbind result_bind].
  destruct (truthy (dict_get md "tool_called"));
    destruct (py_eq_str (dict_get md "abstention_reason") "tool_call");
    destruct (dict_get md "grade") as [| | | |t| | |]; cbn;
    try (f_equal; apply counters_eq; cbn; lia);
    destruct (String.eqb (lower t) "correct");
    destruct (String.eqb (lower t) "incorrect"); cbn;
    f_equal; apply counters_eq; cbn; lia.
Qed.

Lemma metric_step_returns c s c' :
  metric_step c s = Ok c' → grade_is_text s = true.
Proof.
  unfold metric_step, grade_is_text, score_field.
  destruct (py_lower _) as [g|e] eqn:Hg; [|done].
  intros _. by eapply lower_grade_returns.
Qed.

Lemma count_scores_cons p s scores :
  count_scores p (s :: scores) = (Z.b2z (p s) + count_scores p scores)%Z.
Proof.
  unfold count_scores. cbn [List.filter].
  destruct (p s); cbn [List.length Z.b2z]; lia.
Qed.

Lemma count_scores_bounds p scores :
  (0 ≤ count_scores p scores ≤ Z.of_nat (List.length scores))%Z.
Proof.
  induction scores as [|s rest IH]; [done|].
  rewrite count_scores_cons. cbn [List.length].
  destruct (p s); cbn [Z.b2z]; lia.
Qed.

Lemma count_scores_le p q scores :
  (∀ s, p s = true → q s = true) →
  (count_scores p scores ≤ count_scores q scores)%Z.
Proof.
  intros Hpq. induction scores as [|s rest IH]; [done|].
  rewrite !count_scores_cons. specialize (Hpq s).
  destruct (p s), (q s); cbn [Z.b2z];
    first [lia | by specialize (Hpq eq_refl)].
Qed.

(** The loop computes the four counts. *)
Lemma metric_loop_text c scores :
  Forall (λ s, grade_is_text s = true) scores →
  metric_loop c scores = Ok (tally_all c scores).
Proof.
  intros Hall. revert c.
  induction Hall as [|s rest Hs _ IH]; intros c; cbn [metric_loop].
  - f_equal. apply counters_eq; cbn; unfold count_scores; cbn; lia.
  - rewrite metric_step_text by done. cbn [mbind result_bind].
    rewrite IH. f_equal.
    apply counters_eq; cbn; rewrite count_scores_cons; lia.
Qed.

Lemma tally_all_zero scores :
  tally_all zero_counters scores =
    {| tool_called := count_scores uses_tool scores;
       abstain_via_tool := count_scores abstains_via_tool scores;
       attempted_answers := count_scores attempted scores;
       incorrect_answers := count_scores (grade_is "incorrect") scores |}.
Proof. apply counters_eq; cbn; lia. Qed.

Lemma metric_loop_returns c scores c' :
  metric_loop c scores = Ok c' →
  Forall (λ s, grade_is_text s = true) scores.
Proof.
  revert c. induction scores as [|s rest IH]; intros c; [done|].
  cbn [metric_loop]. destruct (metric_step c s) as [c1|e] eqn:Hstep; [|done].
  cbn [mbind result_bind]. intros Hrest. constructor.
  - by eapply metric_step_returns.
  - by eapply IH.
Qed.

Lemma py_truediv_nonzero a b :
  b ≠ 0%Z → py_truediv a b = Ok (inject_Z a / inject_Z b)%Q.
Proof. intros Hb. unfold py_truediv. by apply Z.eqb_neq in Hb as ->. Qed.

Lemma metric_calculator_text scores :
  scores ≠ [] →
  Forall (λ s, grade_is_text s = true) scores →
  metric_calculator scores = Ok (rates_of_counts scores).
Proof.
  intros Hne Hall. destruct scores as [|s rest]; [done|].
  unfold metric_calculator.
  rewrite metric_loop_text, tally_all_zero by done.
  set (scores := s :: rest) in *.
  assert (Z.of_nat (List.length scores) ≠ 0%Z) as Htotal by (cbn; lia).
  cbn [mbind result_bind tool_called abstain_via_tool
       attempted_answers incorrect_answers].
  do 3 (rewrite (py_truediv_nonzero _ _ Htotal); cbn [mbind result_bind]).
  unfold rates_of_counts.
  destruct (0 <? count_scores attempted scores)%Z eqn:Hatt; [|done].
  rewrite py_truediv_nonzero by (apply Z.ltb_lt in Hatt; lia). done.
Qed.

Lemma metric_calculator_returns scores r :
  metric_calculator scores = Ok r →
  Forall (λ s, grade_is_text s = true) scores.
Proof.
  destruct scores as [|s rest]; [by constructor|].
  unfold metric_calculator.
  destruct (metric_loop _ (s :: rest)) as [c|e] eqn:Hloop; [|done].
  intros _. by eapply metric_loop_returns.
Qed.

Lemma ratio_in_unit (a b : Z) :
  (0 ≤ a ≤ b)%Z → (0 < b)%Z → in_unit (inject_Z a / inject_Z b).
Proof.
  intros Hab Hb. destruct b as [|p|p]; try lia.
  unfold in_unit, Qle, Qdiv, Qmult, Qinv, inject_Z. cbn. nia.
Qed.

Lemma grade_is_text_of g s : grade_is g s = true → grade_is_text s = true.
Proof.
  unfold grade_is, grade_is_text, text_or_falsy.
  by destruct (score_field s "grade").
Qed.

Lemma grade_is_other g g' s :
  grade_is g s = true → g ≠ g' → grade_is g' s = false.
Proof.
  unfold grade_is. destruct (score_field s "grade") as [| | | |t| | |];
    try done.
  intros ->%String.eqb_eq Hne. by apply String.eqb_neq.
Qed.

Lemma metric_step_signal c s1 s2 :
  same_signal s1 s2 → metric_step c s1 = metric_step c s2.
Proof.
  unfold same_signal, score_field. intros (Hgrade & Htool & Hreason).
  unfold metric_step. cbv zeta.
  by rewrite !tool_flag_default, Hgrade, Htool, Hreason.
Qed.

Lemma metric_loop_signal c scores1 scores2 :
  Forall2 same_signal scores1 scores2 →
  metric_loop c scores1 = metric_loop c scores2.
Proof.
  intros Hall. revert c.
  induction Hall as [|s1 s2 rest1 rest2 Hs _ IH]; intros c; [done|].
  cbn [metric_loop]. rewrite (metric_step_signal c s1 s2 Hs).
  destruct (metric_step c s2); cbn [mbind result_bind]; [apply IH|done].
Qed.

(** C5: on a non-empty collection the aggregator's hallucination rate is
    the number of scores graded "incorrect" (lower-cased) divided by the
    number graded "correct" or "incorrect" when the latter is positive,
    and 0 otherwise; it returns whenever every grade is a string or is
    absent, None or falsy.  One "incorrect" and one "correct" score give
    attempted_answer_rate = 1 and hallucination_rate = 1/2. *)
Theorem hallucination_rate_formula :
  (∀ scores : list SampleScore, scores ≠ [] →
     (∀ r, metric_calculator scores = Ok r →
        (hallucination_rate r ==
           if (0 <? count_scores attempted scores)%Z
           then inject_Z (count_scores (grade_is "incorrect") scores)
                / inject_Z (count_scores attempted scores)
           else 0)%Q)
     ∧ (Forall (λ s, grade_is_text s = true) scores →
        ∃ r, metric_calculator scores = Ok r))
  ∧ (∀ (s1 s2 : SampleScore) (scores : list SampleScore),
       grade_is "incorrect" s1 = true →
       grade_is "correct" s2 = true →
       scores = [s1; s2] ∨ scores = [s2; s1] →
       ∃ r, metric_calculator scores = Ok r
            ∧ (attempted_answer_rate r == 1)%Q
            ∧ (hallucination_rate r == 1 # 2)%Q).
Proof.
  split.
  - intros scores Hne. split.
    + intros r Hr. pose proof (metric_calculator_returns _ _ Hr) as Hall.
      rewrite metric_calculator_text in Hr by done.
      injection Hr as <-. cbn [hallucination_rate rates_of_counts].
      reflexivity.
    + intros Hall. eexists. by apply metric_calculator_text.
  - intros s1 s2 scores H1 H2 Hscores.
    pose proof (grade_is_other _ "correct" _ H1 ltac:(done)) as H1c.
    pose proof (grade_is_other _ "incorrect" _ H2 ltac:(done)) as H2i.
    assert (Forall (λ s, grade_is_text s = true) scores) as Hall.
    { destruct Hscores as [-> | ->];
        repeat constructor; by eapply grade_is_text_of. }
    exists (rates_of_counts scores). split.
    { apply metric_calculator_text; [|done]. by destruct Hscores as [-> | ->]. }
    unfold rates_of_counts.
    cbn [attempted_answer_rate hallucination_rate].
    destruct Hscores as [-> | ->];
      rewrite !count_scores_cons; unfold attempted;
      rewrite H1, H2, H1c, H2i; cbn; done.
Qed.

(** C7: on the empty collection the aggregator returns the four rates
    equal to 0 and raises nothing. *)
Theorem empty_run_metrics :
  metric_calculator [] =
    Ok {| search_call_rate := 0; abstain_via_tool_rate := 0;
          attempted_answer_rate := 0; hallucination_rate := 0 |}.
Proof. reflexivity. Qed.

Lemma in_unit_zero : in_unit 0.
Proof. by split. Qed.

Lemma incorrect_is_attempted s :
  grade_is "incorrect" s = true → attempted s = true.
Proof. unfold attempted. intros ->. apply orb_true_r. Qed.

(** C8: whatever the metadata of the scores hold, each of the four rates
    the aggregator returns lies in [0, 1]; and it does return them whenever
    every grade is a string or is absent, None or falsy. *)
Theorem rates_in_unit_interval (scores : list SampleScore) :
  (∀ r, metric_calculator scores = Ok r →
     in_unit (search_call_rate r) ∧ in_unit (abstain_via_tool_rate r)
     ∧ in_unit (attempted_answer_rate r) ∧ in_unit (hallucination_rate r))
  ∧ (Forall (λ s, grade_is_text s = true) scores →
     ∃ r, metric_calculator scores = Ok r).
Proof.
  destruct scores as [|s rest].
  { split; [|by eexists]. intros r [= <-]. cbn. auto using in_unit_zero. }
  set (scores := s :: rest).
  assert (scores ≠ []) as Hne by done.
  split; [|intros Hall; eexists; by apply metric_calculator_text].
  intros r Hr. pose proof (metric_calculator_returns _ _ Hr) as Hall.
  rewrite metric_calculator_text in Hr by done. injection Hr as <-.
  assert (0 < Z.of_nat (List.length scores))%Z as Htotal by (cbn; lia).
  pose proof (count_scores_bounds uses_tool scores).
  pose proof (count_scores_bounds abstains_via_tool scores).
  pose proof (count_scores_bounds attempted scores).
  pose proof (count_scores_bounds (grade_is "incorrect") scores).
  pose proof (count_scores_le _ _ scores incorrect_is_attempted).
  cbn [rates_of_counts search_call_rate abstain_via_tool_rate
       attempted_answer_rate hallucination_rate].
  split; [|split; [|split]]; try (apply ratio_in_unit; lia).
  destruct (0 <? _)%Z eqn:Hatt; [|apply in_unit_zero].
  apply Z.ltb_lt in Hatt. apply ratio_in_unit; lia.
Qed.

(** C10: two collections of equal length whose scores agree pairwise on
    the metadata fields grade, tool_called and abstention_reason give the
    same outcome, whatever their values, answers, explanations, sample
    ids and other metadata keys are. *)
Theorem metrics_depend_on_signal_only (scores1 scores2 : list SampleScore) :
  Forall2 same_signal scores1 scores2 →
  metric_calculator scores1 = metric_calculator scores2.
Proof.
  intros Hall. pose proof (Forall2_length _ _ _ Hall) as Hlen.
  pose proof (metric_loop_signal zero_counters _ _ Hall) as Hloop.
  destruct Hall as [|s1 s2 rest1 rest2 Hs Hrest]; [done|].
  unfold metric_calculator. by rewrite Hloop, Hlen.
Qed.

End MetricsProperties.

(** * Properties of the scorer *)

Section ScorerProperties.

Variable repr_other : pyval → string.
Variable baseline_grader : TaskState → Target → nat → result Score.

Lemma scorer_delegates state target log called names graded :
  _extract_tool_calls repr_other state = Ok (called, names) →
  called && String.eqb (predicted_answer state) "" = false →
  baseline_grader state target (List.length log) = Ok graded →
  simpleqa_search_signal_scorer repr_other baseline_grader state target log =
    match merged_abstention_reason (default ∅ (metadata graded)) called with
    | Ok reason =>
        (Ok (merged_score graded called names reason),
         (log ++ [grader_call state target])%list)
    | Raise e => (Raise e, (log ++ [grader_call state target])%list)
    end.
Proof.
  intros Hdetect Hdelegated Hgraded.
  unfold simpleqa_search_signal_scorer, call_baseline.
  by rewrite Hdetect, Hdelegated, Hgraded.
Qed.

Lemma merged_reason_computable md called :
  reason_computable md = true →
  merged_abstention_reason md called = Ok (truthy_abstention_reason md called).
Proof.
  unfold reason_computable, merged_abstention_reason,
    truthy_abstention_reason, grade_lower_is, dict_get_default.
  destruct (truthy (dict_get md "abstention_reason")); [done|].
  cbn [orb]. by destruct (md !! "grade") as [[| | | |t| | |]|].
Qed.

Lemma merged_reason_returns md called reason :
  merged_abstention_reason md called = Ok reason →
  reason_computable md = true.
Proof.
  unfold reason_computable, merged_abstention_reason, dict_get_default.
  destruct (truthy (dict_get md "abstention_reason")); [done|].
  cbn [orb]. by destruct (md !! "grade") as [[| | | |t| | |]|].
Qed.

Lemma non_empty_not_short_circuit state called :
  predicted_answer state ≠ "" →
  called && String.eqb (predicted_answer state) "" = false.
Proof. intros ->%String.eqb_neq. apply andb_false_r. Qed.

(** C1: when the detector reports a tool call and the trimmed output text
    is empty, the scorer returns value 0.0 with grade "not_attempted", grade
    letter "C", tool_called true, the detector's names and abstention reason
    "tool_call"; the log of calls to the baseline grader is left as it
    was. *)
Theorem tool_call_short_circuit state target log names :
  _extract_tool_calls repr_other state = Ok (true, names) →
  predicted_answer state = "" →
  ∃ s, simpleqa_search_signal_scorer repr_other baseline_grader state target log = (Ok s, log)
       ∧ value s = PFloat 0
       ∧ metadata_field s "grade" = Some (PStr "not_attempted")
       ∧ metadata_field s "grade_letter" = Some (PStr "C")
       ∧ metadata_field s "tool_called" = Some (PBool true)
       ∧ metadata_field s "tools" = Some (PList (PStr <$> names))
       ∧ metadata_field s "abstention_reason" = Some (PStr "tool_call").
Proof.
  intros Hdetect Hempty. unfold simpleqa_search_signal_scorer.
  rewrite Hdetect, Hempty. cbn [andb String.eqb].
  eexists. split; [done|]. unfold metadata_field. cbn [value metadata mbind option_bind].
  repeat split; by simplify_map_eq.
Qed.

Lemma merged_score_frame graded called names reason key :
  key ≠ "tool_called" → key ≠ "tools" → key ≠ "abstention_reason" →
  metadata_field (merged_score graded called names reason) key
  = default ∅ (metadata graded) !! key.
Proof.
  intros H1 H2 H3. unfold metadata_field, merged_score.
  cbn [metadata mbind option_bind]. by rewrite !lookup_insert_ne.
Qed.

(** C3 (as amended): for a sample delegated to the baseline grader whose
    result carries a truthy abstention reason or a grade that is absent or
    a string, the merged abstention reason is the baseline's own when that
    is truthy; otherwise it is "grader_not_attempted" when the lower-cased
    grade is "not_attempted" and no tool was called; otherwise it is
    None. *)
Theorem merged_reason_keeps_truthy_own state target log called names graded :
  _extract_tool_calls repr_other state = Ok (called, names) →
  called && String.eqb (predicted_answer state) "" = false →
  baseline_grader state target (List.length log) = Ok graded →
  reason_computable (default ∅ (metadata graded)) = true →
  ∃ s, simpleqa_search_signal_scorer repr_other baseline_grader
         state target log
       = (Ok s, (log ++ [grader_call state target])%list)
       ∧ metadata_field s "abstention_reason"
         = Some (truthy_abstention_reason (default ∅ (metadata graded)) called).
Proof.
  intros Hdetect Hdelegated Hgraded Hreason.
  rewrite (scorer_delegates _ _ _ _ _ _ Hdetect Hdelegated Hgraded).
  rewrite merged_reason_computable by done.
  eexists. split; [done|].
  unfold metadata_field, merged_score. cbn [metadata mbind option_bind].
  by rewrite lookup_insert_eq.
Qed.

(** C4: for a sample whose trimmed output text is not empty, a score the
    scorer returns carries the value and the answer of the baseline
    grader's result, and its metadata is the baseline's with tool_called,
    tools and abstention_reason set and every other key as the baseline has
    it; the scorer returns it whenever the detector and the baseline grader
    return and the baseline's metadata carries a truthy abstention reason
    or a grade that is absent or a string. *)
Theorem delegated_score_frame state target log :
  predicted_answer state ≠ "" →
  (∀ s log',
     simpleqa_search_signal_scorer repr_other baseline_grader
       state target log = (Ok s, log') →
     ∃ graded called names,
       _extract_tool_calls repr_other state = Ok (called, names)
       ∧ baseline_grader state target (List.length log) = Ok graded
       ∧ log' = (log ++ [grader_call state target])%list
       ∧ value s = value graded
       ∧ answer s = answer graded
       ∧ metadata_field s "tool_called" = Some (PBool called)
       ∧ metadata_field s "tools" = Some (PList (PStr <$> names))
       ∧ is_Some (metadata_field s "abstention_reason")
       ∧ ∀ key, key ≠ "tool_called" → key ≠ "tools" →
                key ≠ "abstention_reason" →
                metadata_field s key = default ∅ (metadata graded) !! key)
  ∧ (∀ called names graded,
       _extract_tool_calls repr_other state = Ok (called, names) →
       baseline_grader state target (List.length log) = Ok graded →
       reason_computable (default ∅ (metadata graded)) = true →
       ∃ s, simpleqa_search_signal_scorer repr_other baseline_grader
              state target log
            = (Ok s, (log ++ [grader_call state target])%list)).
Proof.
  intros Hanswer. split.
  - intros s log' Hscore.
    destruct (_extract_tool_calls repr_other state) as [[called names]|e]
      eqn:Hdetect; [|by unfold simpleqa_search_signal_scorer in Hscore;
                        rewrite Hdetect in Hscore].
    destruct (baseline_grader state target (List.length log)) as [graded|e]
      eqn:Hgraded.
    + rewrite (scorer_delegates _ _ _ _ _ _ Hdetect
                 (non_empty_not_short_circuit _ _ Hanswer) Hgraded) in Hscore.
      destruct (merged_abstention_reason _ called) as [reason|e]; [|done].
      injection Hscore as <- <-.
      exists graded, called, names. repeat split; try done.
      * unfold metadata_field, merged_score. cbn [metadata mbind option_bind].
        by rewrite lookup_insert_ne, lookup_insert_ne, lookup_insert_eq.
      * unfold metadata_field, merged_score. cbn [metadata mbind option_bind].
        by rewrite lookup_insert_ne, lookup_insert_eq.
      * unfold metadata_field, merged_score. cbn [metadata mbind option_bind].
        by rewrite lookup_insert_eq.
      * apply merged_score_frame.
    + unfold simpleqa_search_signal_scorer, call_baseline in Hscore.
      rewrite Hdetect, (non_empty_not_short_circuit _ _ Hanswer), Hgraded
        in Hscore. done.
  - intros called names graded Hdetect Hgraded Hreason.
    rewrite (scorer_delegates _ _ _ _ _ _ Hdetect
               (non_empty_not_short_circuit _ _ Hanswer) Hgraded).
    rewrite merged_reason_computable by done. by eexists.
Qed.

End ScorerProperties.

(** * Further properties of the tool-call detector *)

Section DetectorCoverage.

Variable repr_other : pyval → string.

Lemma collect_tool_names_extracted tool_names tcs names :
  collect_tool_names repr_other tool_names tcs = Ok names →
  names = (tool_names ++ extracted_names repr_other tcs)%list.
Proof.
  revert tool_names.
  induction tcs as [|tc rest IH]; intros tool_names;
    cbn [collect_tool_names].
  - intros [= <-]. by rewrite app_nil_r.
  - unfold extracted_names. cbn [omap list_omap]. unfold entry_name at 1.
    destruct (tool_call_name tc) as [name|e]; [|done].
    cbn [mbind result_bind]. intros ->%IH.
    destruct (truthy name); [|done]. by rewrite <- app_assoc.
Qed.

Lemma collect_tool_names_returns_safe tool_names tcs names :
  collect_tool_names repr_other tool_names tcs = Ok names →
  forallb probe_safe tcs = true.
Proof.
  revert tool_names.
  induction tcs as [|tc rest IH]; intros tool_names; [done|].
  cbn [collect_tool_names forallb].
  destruct (tool_call_name tc) as [name|e] eqn:Hname; [|done].
  cbn [mbind result_bind]. intros ->%IH. rewrite andb_true_r.
  revert Hname. unfold tool_call_name, probe_safe.
  destruct tc as [| | | | | |d|attrs]; try done.
  destruct (truthy (dict_get d "name")); [done|]. cbn [orb].
  by destruct (py_or _ _) as [| | | | | |d'|attrs'];
    cbn [method_get]; try destruct (attrs' !! "get").
Qed.

Lemma extracted_names_length tcs :
  (List.length (extracted_names repr_other tcs) ≤ List.length tcs)%nat.
Proof.
  induction tcs as [|tc rest IH]; [done|].
  unfold extracted_names in *. cbn [omap list_omap].
  destruct (entry_name repr_other tc); cbn [List.length]; lia.
Qed.

Lemma scan_messages_none tool_names ms :
  List.find assistant_tool_message ms = None →
  scan_messages repr_other tool_names ms = Ok (false, tool_names).
Proof.
  induction ms as [|m rest IH]; cbn [scan_messages List.find]; [done|].
  unfold assistant_tool_message at 1, carries_tool_calls.
  case_bool_decide; cbn [andb]; [|done].
  by destruct (tool_calls m) as [[|tc tcs]|].
Qed.

(** The detector reads the consulted invocation list and nothing else. *)
Lemma detector_consulted state :
  _extract_tool_calls repr_other state =
    match consulted_calls state with
    | [] => Ok (false, [])
    | tcs => names ← collect_tool_names repr_other [] tcs; Ok (true, names)
    end.
Proof.
  unfold consulted_calls.
  destruct (primary_tool_calls state) eqn:Hprimary.
  - unfold _extract_tool_calls. revert Hprimary.
    unfold primary_tool_calls, carries_tool_calls.
    destruct (message (output state)) as [m|]; [|done].
    cbn [mbind option_bind]. by destruct (tool_calls m) as [[|tc tcs]|].
  - rewrite primary_tool_calls_false by done.
    destruct (List.find _ _) as [m|] eqn:Hfind.
    + rewrite (scan_messages_find _ _ _ m Hfind).
      apply find_some in Hfind as [_ Hm]. revert Hm.
      unfold assistant_tool_message, carries_tool_calls.
      destruct (tool_calls m) as [[|tc tcs]|]; by rewrite ?andb_false_r.
    + by apply scan_messages_none.
Qed.

Lemma consulted_calls_nil state :
  consulted_calls state = [] ↔
    primary_tool_calls state = false
    ∧ Forall (λ m, assistant_tool_message m = false)
        (default [] (messages state)).
Proof.
  unfold consulted_calls.
  destruct (primary_tool_calls state) eqn:Hprimary.
  - split; [|by intros [? _]]. revert Hprimary.
    unfold primary_tool_calls, carries_tool_calls.
    destruct (message (output state)) as [m|]; [|done].
    cbn [mbind option_bind]. by destruct (tool_calls m) as [[|tc tcs]|].
  - destruct (List.find _ _) as [m|] eqn:Hfind.
    + apply find_some in Hfind as [Hin Hm]. split.
      * revert Hm. unfold assistant_tool_message, carries_tool_calls.
        destruct (tool_calls m) as [[|tc tcs]|]; by rewrite ?andb_false_r.
      * intros [_ Hall]. rewrite Forall_forall in Hall.
        apply list_elem_of_In, Hall in Hin. congruence.
    + split; [|done]. intros _. split; [done|].
      apply Forall_forall. intros m Hin%list_elem_of_In.
      by apply (find_none _ _ Hfind).
Qed.

Lemma nameless_entry_name tc :
  nameless_entry tc = true → tool_call_name tc = Ok PNone.
Proof.
  destruct tc as [| | | | | |d|attrs]; try done.
  cbn [nameless_entry tool_call_name getattr].
  destruct (attrs !! "name") as [[]|]; try done; cbn [default];
    by destruct (attrs !! "function") as [[]|].
Qed.

Lemma collect_nameless tool_names tcs :
  forallb nameless_entry tcs = true →
  collect_tool_names repr_other tool_names tcs = Ok tool_names.
Proof.
  induction tcs as [|tc rest IH]; [done|].
  cbn [forallb collect_tool_names]. intros [Htc Hrest]%andb_true_iff.
  rewrite (nameless_entry_name tc Htc). cbn [mbind result_bind truthy].
  by apply IH.
Qed.

(** X1: when the primary output message carries a non-empty invocation
    list, the detector's outcome does not depend on the message history. *)
Theorem primary_calls_ignore_history state history :
  primary_tool_calls state = true →
  _extract_tool_calls repr_other state =
    _extract_tool_calls repr_other
      {| output := output state; messages := history |}.
Proof.
  intros Hprimary. rewrite !detector_consulted. unfold consulted_calls.
  unfold primary_tool_calls in *. cbn [output]. by rewrite Hprimary.
Qed.

(** X2: the detector reports no tool call exactly when the primary message
    carries no non-empty invocation list and no assistant message of the
    history carries one; the names are then empty. *)
Theorem detector_reports_no_call_iff state names :
  _extract_tool_calls repr_other state = Ok (false, names) ↔
    names = []
    ∧ primary_tool_calls state = false
    ∧ Forall (λ m, assistant_tool_message m = false)
        (default [] (messages state)).
Proof.
  rewrite detector_consulted, <- consulted_calls_nil.
  destruct (consulted_calls state) as [|tc tcs].
  - split; [by intros [= <-]|by intros [-> _]].
  - split; [|by intros [_ ?]].
    intros H. by apply flagged_true_not_false in H.
Qed.

(** X3: a result of the detector holds, in entry order, the names of the
    consulted entries that have one: never more names than entries, and the
    flag tells whether the consulted list is non-empty. *)
Theorem detector_names_in_entry_order state called names :
  _extract_tool_calls repr_other state = Ok (called, names) →
  called = match consulted_calls state with [] => false | _ => true end
  ∧ names = extracted_names repr_other (consulted_calls state)
  ∧ (List.length names ≤ List.length (consulted_calls state))%nat.
Proof.
  rewrite detector_consulted. intros H.
  assert (called = match consulted_calls state with [] => false | _ => true end
          ∧ names = extracted_names repr_other (consulted_calls state))
    as [Hcalled ->].
  { destruct (consulted_calls state) as [|tc tcs]; [by injection H as <- <-|].
    destruct (collect_tool_names _ _ _) as [ns|e] eqn:Hns; [|done].
    injection H as <- <-. by apply collect_tool_names_extracted in Hns as ->. }
  split; [done|]. split; [done|]. apply extracted_names_length.
Qed.

(** X4: the detector returns exactly when every entry of the consulted
    list is safe to probe; entries of other messages never make it
    raise. *)
Theorem detector_returns_iff_consulted_safe state :
  (∃ r, _extract_tool_calls repr_other state = Ok r) ↔
    forallb probe_safe (consulted_calls state) = true.
Proof.
  rewrite detector_consulted.
  destruct (consulted_calls state) as [|tc tcs]; [split; by eauto|].
  split.
  - intros [r Hr].
    destruct (collect_tool_names _ _ _) as [ns|e] eqn:Hns; [|done].
    by eapply collect_tool_names_returns_safe.
  - intros Hsafe.
    destruct (collect_tool_names_safe repr_other [] (tc :: tcs) Hsafe)
      as [ns ->]. by eexists.
Qed.

(** X5: when no consulted entry lets a name be read (entries that are
    objects without a name whose function is not an object, or plain
    values), the detector reports a tool call with no name. *)
Theorem nameless_entries_give_no_names state :
  consulted_calls state ≠ [] →
  forallb nameless_entry (consulted_calls state) = true →
  _extract_tool_calls repr_other state = Ok (true, []).
Proof.
  intros Hne Hnameless. rewrite detector_consulted.
  destruct (consulted_calls state) as [|tc tcs]; [done|].
  by rewrite collect_nameless.
Qed.

Lemma named_entry_name e :
  e.2 ≠ "" → tool_call_name (named_entry e) = Ok (PStr e.2).
Proof.
  destruct e as [nested n]. cbn [fst snd]. intros Hn%String.eqb_neq.
  unfold named_entry, nested_call, flat_call, tool_call_name, dict_get, py_or.
  destruct nested; cbn [fst snd].
  - rewrite lookup_singleton_ne by done. cbn [from_option id truthy].
    rewrite lookup_singleton_eq. cbn [from_option id truthy].
    rewrite bool_decide_eq_false_2 by apply insert_non_empty.
    cbn [negb method_get]. unfold dict_get. by rewrite lookup_singleton_eq.
  - rewrite lookup_singleton_eq. cbn [from_option id truthy]. by rewrite Hn.
Qed.

Lemma collect_named_entries tool_names entries :
  Forall (λ e, e.2 ≠ "") entries →
  collect_tool_names repr_other tool_names (named_entry <$> entries)
  = Ok (tool_names ++ entries.*2)%list.
Proof.
  intros Hall. revert tool_names.
  induction Hall as [|e rest He _ IH]; intros tool_names.
  - cbn. by rewrite app_nil_r.
  - cbn [fmap list_fmap collect_tool_names].
    rewrite (named_entry_name e He). cbn [mbind result_bind truthy py_str].
    apply String.eqb_neq in He as ->. cbn [negb].
    rewrite IH. by rewrite <- app_assoc.
Qed.

(** X20: when the consulted entries are dicts that name their tool, flat
    ([{"name": n}]) or nested ([{"function": {"name": n}}]), with non-empty
    names, the detector returns exactly these names, in order. *)
Theorem named_entries_round_trip state (entries : list (bool * string)) :
  entries ≠ [] →
  Forall (λ e, e.2 ≠ "") entries →
  consulted_calls state = named_entry <$> entries →
  _extract_tool_calls repr_other state = Ok (true, entries.*2).
Proof.
  intros Hne Hall Hcalls. rewrite detector_consulted, Hcalls.
  pose proof (collect_named_entries [] entries Hall) as Hnames.
  destruct entries as [|e rest]; [done|].
  cbn [fmap list_fmap] in *. by rewrite Hnames.
Qed.

End DetectorCoverage.

(** * Further properties of the metrics aggregator *)

Section MetricsCoverage.


Lemma count_scores_all p (scores : list SampleScore) :
  Forall (λ s, p s = true) scores →
  count_scores p scores = Z.of_nat (List.length scores).
Proof.
  induction 1 as [|s rest Hs _ IH]; [done|].
  rewrite count_scores_cons, Hs, IH. cbn [List.length Z.b2z]. lia.
Qed.

Lemma count_scores_none p (scores : list SampleScore) :
  Forall (λ s, p s = false) scores → count_scores p scores = 0%Z.
Proof.
  induction 1 as [|s rest Hs _ IH]; [done|].
  by rewrite count_scores_cons, Hs, IH.
Qed.





Lemma metric_calculator_loop_ext (R : SampleScore → SampleScore → Prop)
    scores1 scores2 :
  (∀ c s1 s2, R s1 s2 → metric_step c s1 = metric_step c s2) →
  Forall2 R scores1 scores2 →
  metric_calculator scores1 = metric_calculator scores2.
Proof.
  intros Hstep Hall.
  assert (∀ c, metric_loop c scores1 = metric_loop c scores2) as Hloop.
  { induction Hall as [|s1 s2 rest1 rest2 Hs _ IH]; intros c; [done|].
    cbn [metric_loop]. rewrite (Hstep c s1 s2 Hs).
    destruct (metric_step c s2); cbn [mbind result_bind]; [apply IH|done]. }
  pose proof (Forall2_length _ _ _ Hall) as Hlen.
  destruct Hall; [done|]. unfold metric_calculator. by rewrite Hloop, Hlen.
Qed.

Lemma ratio_self (n : Z) : (0 < n)%Z → (inject_Z n / inject_Z n == 1)%Q.
Proof.
  intros Hn. apply Qmult_inv_r. unfold Qeq, inject_Z. cbn. lia.
Qed.

Lemma ratio_zero (n : Z) : (inject_Z 0 / inject_Z n == 0)%Q.
Proof. unfold Qdiv. apply Qmult_0_l. Qed.

Lemma ratio_sum_in_unit (a b n : Z) :
  (0 ≤ a)%Z → (0 ≤ b)%Z → (a + b ≤ n)%Z → (0 < n)%Z →
  (inject_Z a / inject_Z n + inject_Z b / inject_Z n <= 1)%Q.
Proof.
  intros Ha Hb Hab Hn. destruct n as [|p|p]; try lia.
  unfold Qle, Qplus, Qdiv, Qmult, Qinv, inject_Z. cbn. nia.
Qed.

Lemma abstained_or_attempted scores :
  (count_scores abstains_via_tool scores + count_scores attempted scores
   ≤ Z.of_nat (List.length scores))%Z.
Proof.
  induction scores as [|s rest IH]; [done|].
  rewrite !count_scores_cons. cbn [List.length]. rewrite Nat2Z.inj_succ.
  assert (Z.b2z (abstains_via_tool s) + Z.b2z (attempted s) ≤ 1)%Z; [|lia].
  unfold abstains_via_tool. by destruct (attempted s), (uses_tool s), (py_eq_str _ _).
Qed.

Lemma tool_abstention_tally s :
  tool_abstention s = true →
  grade_is_text s = true ∧ uses_tool s = true
  ∧ abstains_via_tool s = true ∧ attempted s = false
  ∧ grade_is "incorrect" s = false.
Proof.
  unfold tool_abstention.
  intros [[Hgrade Htool]%andb_true_iff Hreason]%andb_true_iff.
  pose proof (grade_is_other _ "correct" _ Hgrade ltac:(done)) as Hc.
  pose proof (grade_is_other _ "incorrect" _ Hgrade ltac:(done)) as Hi.
  unfold abstains_via_tool, attempted.
  rewrite Hc, Hi, Htool, Hreason. repeat split; try done.
  by eapply grade_is_text_of.
Qed.

Lemma metric_step_up_to_case c s1 s2 :
  same_signal_up_to_case s1 s2 → metric_step c s1 = metric_step c s2.
Proof.
  intros ((t1 & t2 & Hg1 & Hg2 & Hlower) & Htool & Hreason).
  assert (∀ g, grade_is g s1 = grade_is g s2) as Hgrade.
  { intros g. unfold grade_is. by rewrite Hg1, Hg2, Hlower. }
  rewrite !metric_step_text
    by (unfold grade_is_text, text_or_falsy; by rewrite ?Hg1, ?Hg2).
  f_equal. unfold tally, abstains_via_tool, attempted, uses_tool.
  by rewrite !Hgrade, Htool, Hreason.
Qed.

(** X6: on a non-empty collection, the three rates taken over all samples
    are the number of scores with a truthy tool_called, the number of
    non-attempted scores with a truthy tool_called and abstention reason
    "tool_call", and the number of scores graded "correct" or "incorrect",
    each divided by the number of scores. *)
Theorem count_rates_formula (scores : list SampleScore) r :
  scores ≠ [] →
  metric_calculator scores = Ok r →
  let total := inject_Z (Z.of_nat (List.length scores)) in
  (search_call_rate r == inject_Z (count_scores uses_tool scores) / total)%Q
  ∧ (abstain_via_tool_rate r
     == inject_Z (count_scores abstains_via_tool scores) / total)%Q
  ∧ (attempted_answer_rate r
     == inject_Z (count_scores attempted scores) / total)%Q.
Proof.
  intros Hne Hr. pose proof (metric_calculator_returns _ _ Hr) as Hall.
  rewrite metric_calculator_text in Hr by done. injection Hr as <-.
  cbn. repeat split; reflexivity.
Qed.

(** X7: a score is never tallied both as attempted and as abstained via a
    tool: the two rates add up to at most 1. *)
Theorem abstained_and_attempted_disjoint (scores : list SampleScore) r :
  metric_calculator scores = Ok r →
  (abstain_via_tool_rate r + attempted_answer_rate r <= 1)%Q.
Proof.
  intros Hr. destruct scores as [|s rest]; [by injection Hr as <-|].
  pose proof (metric_calculator_returns _ _ Hr) as Hall.
  rewrite metric_calculator_text in Hr by done. injection Hr as <-.
  cbn [rates_of_counts abstain_via_tool_rate attempted_answer_rate].
  apply ratio_sum_in_unit.
  - apply count_scores_bounds.
  - apply count_scores_bounds.
  - apply abstained_or_attempted.
  - cbn [List.length]. lia.
Qed.



(** X10: a run in which every score is graded "not_attempted" with a truthy
    tool_called and abstention reason "tool_call" (the scores of the
    short-circuit path) has search_call_rate 1, abstain_via_tool_rate 1,
    attempted_answer_rate 0 and hallucination_rate 0. *)
Theorem all_tool_abstentions_run (scores : list SampleScore) :
  scores ≠ [] →
  Forall (λ s, tool_abstention s = true) scores →
  ∃ r, metric_calculator scores = Ok r
       ∧ (search_call_rate r == 1)%Q ∧ (abstain_via_tool_rate r == 1)%Q
       ∧ (attempted_answer_rate r == 0)%Q ∧ (hallucination_rate r == 0)%Q.
Proof.
  intros Hne Hall.
  assert (0 < Z.of_nat (List.length scores))%Z as Htotal
    by (destruct scores; [done|cbn [List.length]; lia]).
  exists (rates_of_counts scores). split.
  { apply metric_calculator_text; [done|].
    eapply Forall_impl; [done|]. intros s Hs.
    by apply tool_abstention_tally in Hs as [? _]. }
  unfold rates_of_counts.
  cbn [search_call_rate abstain_via_tool_rate attempted_answer_rate
       hallucination_rate].
  rewrite (count_scores_all uses_tool), (count_scores_all abstains_via_tool),
    (count_scores_none attempted);
    try (eapply Forall_impl; [done|]; intros s Hs;
         by apply tool_abstention_tally in Hs as (? & ? & ? & ? & ?)).
  cbn [Z.ltb Z.compare].
  repeat split; first [by apply ratio_self | apply ratio_zero | reflexivity].
Qed.

(** X11: grades are compared lower-cased: two collections whose scores
    agree pairwise on the lower-cased grade and on tool_called and
    abstention_reason give the same outcome. *)
Theorem grades_compare_case_insensitively (scores1 scores2 : list SampleScore) :
  Forall2 same_signal_up_to_case scores1 scores2 →
  metric_calculator scores1 = metric_calculator scores2.
Proof.
  apply metric_calculator_loop_ext. intros c s1 s2.
  apply metric_step_up_to_case.
Qed.

End MetricsCoverage.

(** * Further properties of the scorer *)

Section ScorerCoverage.

Variable repr_other : pyval → string.
Variable baseline_grader : TaskState → Target → nat → result Score.


Lemma all_space_lstrip s : all_space (lstrip s) = all_space s.
Proof.
  induction s as [|c s IH]; [done|]. cbn [lstrip all_space].
  destruct (is_space c) eqn:Hc; [done|]. cbn [all_space]. by rewrite Hc.
Qed.

Lemma rstrip_empty_iff s : rstrip s = "" ↔ all_space s = true.
Proof.
  induction s as [|c s IH]; [done|]. cbn [rstrip all_space].
  destruct (rstrip s) as [|c' r] eqn:Hr.
  - destruct (is_space c); cbn [andb]; [|done].
    split; intros _; [by apply IH|done].
  - split; [done|]. intros [_ Hs%IH]%andb_true_iff. done.
Qed.

(** X12: an exception of the baseline grader on a delegated sample is the
    scorer's outcome, with the one call to the grader logged. *)
Theorem baseline_failure_propagates state target log called names e :
  _extract_tool_calls repr_other state = Ok (called, names) →
  called && String.eqb (predicted_answer state) "" = false →
  baseline_grader state target (List.length log) = Raise e →
  simpleqa_search_signal_scorer repr_other baseline_grader state target log
  = (Raise e, (log ++ [grader_call state target])%list).
Proof.
  intros Hdetect Hdelegated Hfail.
  unfold simpleqa_search_signal_scorer, call_baseline.
  by rewrite Hdetect, Hdelegated, Hfail.
Qed.

(** X13: an exception of the detector is the scorer's outcome, and the
    baseline grader is not called. *)
Theorem detector_failure_skips_grader state target log e :
  _extract_tool_calls repr_other state = Raise e →
  simpleqa_search_signal_scorer repr_other baseline_grader state target log
  = (Raise e, log).
Proof.
  intros Hdetect. unfold simpleqa_search_signal_scorer. by rewrite Hdetect.
Qed.

(** X14: one scoring call invokes the baseline grader exactly once, with
    the scored transcript and target, when the detector returns and the
    sample is not short-circuited, and never otherwise, whatever the grader
    answers. *)
Theorem grader_called_once_when_delegated state target log :
  (simpleqa_search_signal_scorer repr_other baseline_grader
     state target log).2
  = match _extract_tool_calls repr_other state with
    | Ok (called, _) =>
        if called && String.eqb (predicted_answer state) "" then log
        else (log ++ [grader_call state target])%list
    | Raise _ => log
    end.
Proof.
  unfold simpleqa_search_signal_scorer, call_baseline.
  destruct (_extract_tool_calls repr_other state) as [[called names]|e];
    [|done].
  destruct (called && _); [done|].
  destruct (baseline_grader _ _ _) as [graded|e]; [|done].
  by destruct (merged_abstention_reason _ _).
Qed.

(** X15: when a tool was called, the answer is not empty, and the baseline
    result carries no truthy abstention reason and a grade that is absent
    or a string, the merged abstention reason is None, also when the grade
    is "not_attempted"; the aggregator counts the score as a tool call and
    not as an abstention via a tool. *)
Theorem tool_call_with_answer_not_attributed state target log names graded :
  _extract_tool_calls repr_other state = Ok (true, names) →
  predicted_answer state ≠ "" →
  baseline_grader state target (List.length log) = Ok graded →
  truthy (dict_get (default ∅ (metadata graded)) "abstention_reason") = false →
  reason_computable (default ∅ (metadata graded)) = true →
  ∃ s, simpleqa_search_signal_scorer repr_other baseline_grader
         state target log
       = (Ok s, (log ++ [grader_call state target])%list)
       ∧ metadata_field s "abstention_reason" = Some PNone
       ∧ ∀ ident, uses_tool (as_sample ident s) = true
                  ∧ abstains_via_tool (as_sample ident s) = false.
Proof.
  intros Hdetect Hanswer Hgraded Hown Hreason.
  rewrite (scorer_delegates _ _ _ _ _ _ _ _ Hdetect
             (non_empty_not_short_circuit _ _ Hanswer) Hgraded).
  rewrite merged_reason_computable by done.
  unfold truthy_abstention_reason. rewrite Hown, andb_false_r.
  eexists. split; [done|].
  unfold abstains_via_tool, uses_tool, score_field, metadata_field,
    as_sample, merged_score, dict_get.
  cbn [score metadata mbind option_bind].
  split; [by rewrite lookup_insert_eq|]. intros ident.
  change (default ∅ (Some ?m)) with m.
  rewrite lookup_insert_eq.
  rewrite lookup_insert_ne, lookup_insert_ne, lookup_insert_eq by done.
  cbn [default from_option truthy py_eq_str]. by rewrite andb_false_r.
Qed.

(** X16: a score the scorer returns never carries an explanation, whatever
    the baseline grader's result holds. *)
Theorem explanation_dropped state target log s log' :
  simpleqa_search_signal_scorer repr_other baseline_grader state target log
  = (Ok s, log') →
  explanation s = None.
Proof.
  unfold simpleqa_search_signal_scorer, call_baseline.
  destruct (_extract_tool_calls repr_other state) as [[called names]|e];
    [|done].
  destruct (called && _); [by intros [= <- _]|].
  destruct (baseline_grader _ _ _) as [graded|e]; [|done].
  destruct (merged_abstention_reason _ _); [|done]. by intros [= <- _].
Qed.


(** X18: the score of the short-circuit path is one the aggregator tallies
    as an abstention via a tool. *)
Theorem short_circuit_score_is_tool_abstention state target log names s log' :
  _extract_tool_calls repr_other state = Ok (true, names) →
  predicted_answer state = "" →
  simpleqa_search_signal_scorer repr_other baseline_grader state target log
  = (Ok s, log') →
  ∀ ident, tool_abstention (as_sample ident s) = true.
Proof.
  intros Hdetect Hempty. unfold simpleqa_search_signal_scorer.
  rewrite Hdetect, Hempty. cbn [andb String.eqb]. intros [= <- _] ident.
  unfold tool_abstention, grade_is, uses_tool, score_field, as_sample,
    dict_get.
  cbn [score metadata]. change (default ∅ (Some ?m)) with m.
  by simplify_map_eq.
Qed.

(** X19: the predicted answer is empty exactly when the completion is
    absent or holds white space only. *)
Theorem predicted_answer_empty_iff state :
  predicted_answer state = "" ↔
    all_space (default "" (completion (output state))) = true.
Proof.
  unfold predicted_answer, strip.
  by rewrite rstrip_empty_iff, all_space_lstrip.
Qed.

End ScorerCoverage.

(** * Instances on the sample inputs *)

(** C1 at a transcript with a flat tool call and blank text, with a grader
    that would fail if it were called. *)
Lemma tool_call_short_circuit_witness :
  _extract_tool_calls no_repr tool_only_state = Ok (true, ["web_search"])
  ∧ predicted_answer tool_only_state = ""
  ∧ ∃ s, simpleqa_search_signal_scorer no_repr failing_grader
           tool_only_state ["Paris"] [] = (Ok s, [])
         ∧ value s = PFloat 0
         ∧ metadata_field s "grade" = Some (PStr "not_attempted")
         ∧ metadata_field s "grade_letter" = Some (PStr "C")
         ∧ metadata_field s "tool_called" = Some (PBool true)
         ∧ metadata_field s "tools" = Some (PList (PStr <$> ["web_search"]))
         ∧ metadata_field s "abstention_reason" = Some (PStr "tool_call").
Proof.
  split; [reflexivity|]. split; [reflexivity|].
  apply (tool_call_short_circuit no_repr failing_grader tool_only_state
           ["Paris"] [] ["web_search"]); reflexivity.
Defined.

(** C2 (as stated) fails: an invocation given as an object whose
    [function] is the name itself yields no name, so the detector returns
    [(true, [])]. *)
Lemma nameless_call_breaks_invariant :
  _extract_tool_calls no_repr object_call_state = Ok (true, [])
  ∧ ¬ detector_invariant_claimed (true, []).
Proof.
  split; [reflexivity|]. intros [_ Hempty]. by specialize (Hempty eq_refl).
Qed.

Lemma detector_names_imply_called_witness :
  _extract_tool_calls no_repr fallback_state = Ok (true, ["search"; "browse"])
  ∧ ((["search"; "browse"] ≠ [] → true = true)
     ∧ (true = false → ["search"; "browse"] = [])).
Proof.
  split; [reflexivity|].
  apply (detector_names_imply_called no_repr fallback_state); reflexivity.
Defined.

(** C3 (as stated) fails: a baseline reason set to the empty string is not
    null, yet the merged reason is None. *)
Lemma empty_reason_not_kept :
  let md := default ∅ (metadata graded_with_empty_reason) in
  dict_get md "abstention_reason" = PStr ""
  ∧ claimed_abstention_reason md false = PStr ""
  ∧ ∃ s, simpleqa_search_signal_scorer no_repr
           (grader_returning graded_with_empty_reason)
           answered_state ["Paris"] []
         = (Ok s, [grader_call answered_state ["Paris"]])
         ∧ metadata_field s "abstention_reason" = Some PNone
         ∧ metadata_field s "abstention_reason"
           ≠ Some (claimed_abstention_reason md false).
Proof.
  split; [reflexivity|]. split; [reflexivity|].
  eexists. split; [reflexivity|]. split; [reflexivity|].
  vm_compute. discriminate.
Qed.

Lemma merged_reason_keeps_truthy_own_witness :
  _extract_tool_calls no_repr answered_state = Ok (false, [])
  ∧ false && String.eqb (predicted_answer answered_state) "" = false
  ∧ reason_computable (default ∅ (metadata graded_not_attempted)) = true
  ∧ ∃ s, simpleqa_search_signal_scorer no_repr
           (grader_returning graded_not_attempted) answered_state ["Paris"] []
         = (Ok s, ([] ++ [grader_call answered_state ["Paris"]])%list)
         ∧ metadata_field s "abstention_reason"
           = Some (PStr "grader_not_attempted").
Proof.
  split; [reflexivity|]. split; [reflexivity|]. split; [reflexivity|].
  apply (merged_reason_keeps_truthy_own no_repr
           (grader_returning graded_not_attempted) answered_state ["Paris"] []
           false [] graded_not_attempted); reflexivity.
Defined.

Lemma delegated_score_frame_witness :
  predicted_answer answered_after_tool_state ≠ ""
  ∧ ∃ s, simpleqa_search_signal_scorer no_repr
           (grader_returning graded_correct)
           answered_after_tool_state ["Paris"] []
         = (Ok s, [grader_call answered_after_tool_state ["Paris"]])
         ∧ value s = PFloat 1
         ∧ answer s = Some "Paris"
         ∧ metadata_field s "tool_called" = Some (PBool true)
         ∧ metadata_field s "tools" = Some (PList [PStr "web_search"])
         ∧ metadata_field s "grade" = Some (PStr "correct")
         ∧ metadata_field s "grade_letter" = Some (PStr "A").
Proof.
  assert (predicted_answer answered_after_tool_state ≠ "") as Hanswer
    by discriminate.
  split; [exact Hanswer|].
  destruct (delegated_score_frame no_repr (grader_returning graded_correct)
              answered_after_tool_state ["Paris"] [] Hanswer)
    as [Hframe Hreturns].
  destruct (Hreturns true ["web_search"] graded_correct
              eq_refl eq_refl eq_refl) as [s Hs].
  destruct (Hframe s _ Hs)
    as (graded & called & names & Hdetect & Hgraded & _ & Hvalue & Hans
        & Htool & Htools & _ & Hother).
  injection Hdetect as <- <-. injection Hgraded as <-.
  exists s. split; [exact Hs|].
  rewrite Hvalue, Hans, Htool, Htools, !Hother by discriminate.
  repeat split; reflexivity.
Defined.

Lemma hallucination_rate_formula_witness :
  grade_is "incorrect" incorrect_sample = true
  ∧ grade_is "correct" correct_sample = true
  ∧ ∃ r, metric_calculator [incorrect_sample; correct_sample] = Ok r
         ∧ (attempted_answer_rate r == 1)%Q
         ∧ (hallucination_rate r == 1 # 2)%Q.
Proof.
  split; [reflexivity|]. split; [reflexivity|].
  apply (proj2 hallucination_rate_formula incorrect_sample correct_sample);
    [reflexivity | reflexivity | by left].
Defined.

Lemma detector_fallback_first_match_witness :
  primary_tool_calls fallback_state = false
  ∧ List.find assistant_tool_message (default [] (messages fallback_state))
    = Some (assistant_with
              [flat_call "search"; record_object_call "lookup";
               nested_call "browse"])
  ∧ _extract_tool_calls no_repr fallback_state
    = Ok (true, ["search"; "browse"]).
Proof.
  split; [reflexivity|]. split; [reflexivity|].
  rewrite (detector_fallback_first_match no_repr fallback_state
             (assistant_with
                [flat_call "search"; record_object_call "lookup";
                 nested_call "browse"]) eq_refl eq_refl).
  reflexivity.
Defined.

Lemma rates_in_unit_interval_witness :
  Forall (λ s, grade_is_text s = true)
    [incorrect_sample; abstained_sample; bare_sample]
  ∧ ∃ r, metric_calculator [incorrect_sample; abstained_sample; bare_sample]
         = Ok r
         ∧ in_unit (search_call_rate r) ∧ in_unit (abstain_via_tool_rate r)
         ∧ in_unit (attempted_answer_rate r) ∧ in_unit (hallucination_rate r).
Proof.
  assert (Forall (λ s, grade_is_text s = true)
            [incorrect_sample; abstained_sample; bare_sample]) as Htext
    by (repeat constructor).
  split; [exact Htext|].
  destruct (rates_in_unit_interval
              [incorrect_sample; abstained_sample; bare_sample])
    as [Hbounds Hreturns].
  destruct (Hreturns Htext) as [r Hr].
  exists r. split; [exact Hr|]. exact (Hbounds r Hr).
Defined.

Lemma metrics_depend_on_signal_only_witness :
  Forall2 same_signal
    [abstained_sample; bare_sample; correct_sample]
    [abstained_sample_variant; unrelated_sample; correct_sample]
  ∧ metric_calculator [abstained_sample; bare_sample; correct_sample]
    = metric_calculator
        [abstained_sample_variant; unrelated_sample; correct_sample].
Proof.
  assert (Forall2 same_signal
            [abstained_sample; bare_sample; correct_sample]
            [abstained_sample_variant; unrelated_sample; correct_sample])
    as Hsame by (repeat constructor).
  split; [exact Hsame|].
  exact (metrics_depend_on_signal_only _ _ Hsame).
Defined.

(** * Instances of the further properties *)

Lemma primary_calls_ignore_history_witness :
  primary_tool_calls primary_and_history_state = true
  ∧ _extract_tool_calls no_repr primary_and_history_state
    = _extract_tool_calls no_repr
        {| output := output primary_and_history_state; messages := None |}.
Proof.
  split; [reflexivity|].
  apply (primary_calls_ignore_history no_repr primary_and_history_state None).
  reflexivity.
Defined.

Lemma detector_names_in_entry_order_witness :
  _extract_tool_calls no_repr fallback_state = Ok (true, ["search"; "browse"])
  ∧ true = match consulted_calls fallback_state with [] => false | _ => true end
  ∧ ["search"; "browse"]
    = extracted_names no_repr (consulted_calls fallback_state)
  ∧ (List.length ["search"; "browse"]
     ≤ List.length (consulted_calls fallback_state))%nat.
Proof.
  split; [reflexivity|].
  apply (detector_names_in_entry_order no_repr fallback_state). reflexivity.
Defined.

Lemma nameless_entries_give_no_names_witness :
  consulted_calls object_call_state ≠ []
  ∧ forallb nameless_entry (consulted_calls object_call_state) = true
  ∧ _extract_tool_calls no_repr object_call_state = Ok (true, []).
Proof.
  assert (consulted_calls object_call_state ≠ []) as Hne by discriminate.
  split; [exact Hne|]. split; [reflexivity|].
  apply (nameless_entries_give_no_names no_repr object_call_state Hne).
  reflexivity.
Defined.

Lemma named_entries_round_trip_witness :
  consulted_calls
    (transcript "" (Some (assistant_with
                            [flat_call "search"; nested_call "browse"])) [])
  = named_entry <$> [(false, "search"); (true, "browse")]
  ∧ _extract_tool_calls no_repr
      (transcript "" (Some (assistant_with
                              [flat_call "search"; nested_call "browse"])) [])
    = Ok (true, ["search"; "browse"]).
Proof.
  split; [reflexivity|].
  apply (named_entries_round_trip no_repr _
           [(false, "search"); (true, "browse")]);
    [discriminate | repeat constructor; discriminate | reflexivity].
Defined.

Lemma count_rates_formula_witness :
  ∃ r, metric_calculator [incorrect_sample; abstained_sample; bare_sample]
       = Ok r
       ∧ (search_call_rate r == 1 # 3)%Q
       ∧ (abstain_via_tool_rate r == 1 # 3)%Q
       ∧ (attempted_answer_rate r == 1 # 3)%Q.
Proof.
  destruct (metric_calculator [incorrect_sample; abstained_sample; bare_sample])
    as [r|e] eqn:Hr; [|vm_compute in Hr; discriminate Hr].
  exists r. split; [reflexivity|].
  destruct (count_rates_formula
              [incorrect_sample; abstained_sample; bare_sample] r
              ltac:(discriminate) Hr)
    as (Hsearch & Habstain & Hattempted).
  rewrite Hsearch, Habstain, Hattempted. repeat split; reflexivity.
Defined.

Lemma abstained_and_attempted_disjoint_witness :
  ∃ r, metric_calculator [incorrect_sample; abstained_sample; bare_sample]
       = Ok r
       ∧ (abstain_via_tool_rate r + attempted_answer_rate r <= 1)%Q.
Proof.
  destruct (metric_calculator [incorrect_sample; abstained_sample; bare_sample])
    as [r|e] eqn:Hr; [|vm_compute in Hr; discriminate Hr].
  exists r. split; [reflexivity|].
  exact (abstained_and_attempted_disjoint _ r Hr).
Defined.


Lemma all_tool_abstentions_run_witness :
  Forall (λ s, tool_abstention s = true)
    [abstained_sample; abstained_sample_variant]
  ∧ ∃ r, metric_calculator [abstained_sample; abstained_sample_variant] = Ok r
         ∧ (search_call_rate r == 1)%Q ∧ (abstain_via_tool_rate r == 1)%Q
         ∧ (attempted_answer_rate r == 0)%Q ∧ (hallucination_rate r == 0)%Q.
Proof.
  assert (Forall (λ s, tool_abstention s = true)
            [abstained_sample; abstained_sample_variant]) as Hall
    by (repeat constructor).
  split; [exact Hall|].
  exact (all_tool_abstentions_run
           [abstained_sample; abstained_sample_variant]
           ltac:(discriminate) Hall).
Defined.

Lemma grades_compare_case_insensitively_witness :
  Forall2 same_signal_up_to_case
    [shouted_correct_sample; incorrect_sample]
    [correct_sample; incorrect_sample]
  ∧ metric_calculator [shouted_correct_sample; incorrect_sample]
    = metric_calculator [correct_sample; incorrect_sample].
Proof.
  assert (Forall2 same_signal_up_to_case
            [shouted_correct_sample; incorrect_sample]
            [correct_sample; incorrect_sample]) as Hsame.
  { repeat constructor.
    - by exists "CORRECT", "correct".
    - by exists "incorrect", "incorrect". }
  split; [exact Hsame|].
  exact (grades_compare_case_insensitively _ _ Hsame).
Defined.

Lemma baseline_failure_propagates_witness :
  _extract_tool_calls no_repr answered_state = Ok (false, [])
  ∧ simpleqa_search_signal_scorer no_repr failing_grader
      answered_state ["Paris"] []
    = (Raise (OtherError "judge unavailable"),
       [grader_call answered_state ["Paris"]]).
Proof.
  split; [reflexivity|].
  apply (baseline_failure_propagates no_repr failing_grader answered_state
           ["Paris"] [] false []); reflexivity.
Defined.

Lemma detector_failure_skips_grader_witness :
  _extract_tool_calls no_repr broken_call_state = Raise AttributeError
  ∧ simpleqa_search_signal_scorer no_repr (grader_returning graded_correct)
      broken_call_state ["Paris"] []
    = (Raise AttributeError, []).
Proof.
  split; [reflexivity|].
  apply (detector_failure_skips_grader no_repr
           (grader_returning graded_correct) broken_call_state ["Paris"] []).
  reflexivity.
Defined.

Lemma tool_call_with_answer_not_attributed_witness :
  _extract_tool_calls no_repr answered_after_tool_state
  = Ok (true, ["web_search"])
  ∧ predicted_answer answered_after_tool_state ≠ ""
  ∧ ∃ s, simpleqa_search_signal_scorer no_repr
           (grader_returning graded_not_attempted)
           answered_after_tool_state ["Paris"] []
         = (Ok s, [grader_call answered_after_tool_state ["Paris"]])
         ∧ metadata_field s "grade" = Some (PStr "Not_Attempted")
         ∧ metadata_field s "abstention_reason" = Some PNone
         ∧ uses_tool (as_sample (PInt 1) s) = true
         ∧ abstains_via_tool (as_sample (PInt 1) s) = false.
Proof.
  assert (predicted_answer answered_after_tool_state ≠ "") as Hanswer
    by discriminate.
  split; [reflexivity|]. split; [exact Hanswer|].
  destruct (tool_call_with_answer_not_attributed no_repr
              (grader_returning graded_not_attempted)
              answered_after_tool_state ["Paris"] [] ["web_search"]
              graded_not_attempted eq_refl Hanswer eq_refl eq_refl eq_refl)
    as (s & Hs & Hreason & Htally).
  exists s. split; [exact Hs|].
  destruct (Htally (PInt 1)) as [Htool Habstain].
  repeat split; try done.
  vm_compute in Hs. by injection Hs as <-.
Defined.

Lemma explanation_dropped_witness :
  explanation graded_correct = Some "matches the target"
  ∧ ∃ s, simpleqa_search_signal_scorer no_repr
           (grader_returning graded_correct) answered_state ["Paris"] []
         = (Ok s, [grader_call answered_state ["Paris"]])
         ∧ explanation s = None.
Proof.
  split; [reflexivity|].
  destruct (simpleqa_search_signal_scorer no_repr
              (grader_returning graded_correct) answered_state ["Paris"] [])
    as [[s|e] log'] eqn:Hs; [|vm_compute in Hs; discriminate Hs].
  exists s. split.
  - vm_compute in Hs. by injection Hs as <- <-.
  - exact (explanation_dropped no_repr (grader_returning graded_correct)
             answered_state ["Paris"] [] s log' Hs).
Defined.


Lemma short_circuit_score_is_tool_abstention_witness :
  ∃ s, simpleqa_search_signal_scorer no_repr failing_grader
         tool_only_state ["Paris"] [] = (Ok s, [])
       ∧ tool_abstention (as_sample (PInt 1) s) = true.
Proof.
  destruct (simpleqa_search_signal_scorer no_repr failing_grader
              tool_only_state ["Paris"] [])
    as [[s|e] log'] eqn:Hs; [|vm_compute in Hs; discriminate Hs].
  exists s. split.
  - vm_compute in Hs. by injection Hs as <- <-.
  - exact (short_circuit_score_is_tool_abstention no_repr failing_grader
             tool_only_state ["Paris"] [] ["web_search"] s log'
             eq_refl eq_refl Hs (PInt 1)).
Defined.

Lemma detector_reports_no_call_iff_witness :
  _extract_tool_calls no_repr answered_state = Ok (false, [])
  ∧ primary_tool_calls answered_state = false
  ∧ Forall (λ m, assistant_tool_message m = false)
      (default [] (messages answered_state)).
Proof.
  split; [reflexivity|].
  apply (proj1 (detector_reports_no_call_iff no_repr answered_state [])
           eq_refl).
Defined.

Lemma detector_returns_iff_consulted_safe_witness :
  forallb probe_safe (consulted_calls primary_and_history_state) = true
  ∧ (∃ r, _extract_tool_calls no_repr primary_and_history_state = Ok r)
  ∧ forallb probe_safe (consulted_calls broken_call_state) = false.
Proof.
  split; [reflexivity|]. split; [|reflexivity].
  apply (proj2 (detector_returns_iff_consulted_safe no_repr
                  primary_and_history_state)).
  reflexivity.
Defined.


Lemma predicted_answer_empty_iff_witness :
  all_space (default "" (completion (output tool_only_state))) = true
  ∧ predicted_answer tool_only_state = "".
Proof.
  split; [reflexivity|].
  apply (proj2 (predicted_answer_empty_iff tool_only_state)). reflexivity.
Defined.
